(** * pwiz/data/mziddata/MascotReader_dummy.cpp

    The build of ProteoWizard without Mascot support links this file in place
    of the real Mascot reader.  Every member function of [MascotReader] is
    embedded below as a computation over the state a C++ call can touch: the
    file system, the store of shared documents, and the object the caller
    passes by reference. *)

From Stdlib Require Import Ascii.
From stdpp Require Import base strings list gmap.

(** * Texts *)

(** [mentions sub s]: [sub] occurs in [s] (what a caller finds with
    [std::string::find] on [e.what()]). *)
Fixpoint mentions (sub s : string) {struct s} : bool :=
  String.prefix sub s ||
  match s with
  | EmptyString => false
  | String _ s' => mentions sub s'
  end.

Definition tolower (c : ascii) : ascii :=
  let n := nat_of_ascii c in
  if Nat.leb 65 n && Nat.leb n 90 then ascii_of_nat (n + 32) else c.

Fixpoint lower (s : string) : string :=
  match s with
  | EmptyString => EmptyString
  | String c s' => String (tolower c) (lower s')
  end.

(** The bracketed tag a fault text starts with, [[Reader::operation]]. *)
Definition fault_prefix (reader operation : string) : string :=
  "[" +:+ reader +:+ "::" +:+ operation +:+ "]".

(** A format name is an identifier of the format [vendor] when it names the
    vendor, in any letter case. *)
Definition names_format (vendor name : string) : bool :=
  mentions (lower vendor) (lower name).

(** * Exceptions and outcomes *)

(** The only exception class the file throws. *)
Inductive exception : Type :=
| runtime_error (what_arg : string).

Definition what (e : exception) : string :=
  match e with runtime_error m => m end.

Inductive Outcome (A : Type) : Type :=
| Returned (a : A)
| Thrown (e : exception).
Arguments Returned {A} a.
Arguments Thrown {A} e.

(** A call runs on a state [S] and leaves a state behind, whether it returns
    or throws. *)
Definition M (S A : Type) : Type := S -> Outcome A * S.

Definition ret {S A : Type} (a : A) : M S A := fun s => (Returned a, s).
Definition throw {S A : Type} (e : exception) : M S A := fun s => (Thrown e, s).

(** * The world of a call *)

(** Address of a document owned through a [boost::shared_ptr]. *)
Definition loc : Type := positive.

(** [files]: the files on disk, by name, with their contents (a name that is
    not bound is a file that does not exist).  [opened]: the names of the
    files opened so far, latest first.  [docs]: the documents shared handles
    point to.  The document type is declared outside this file and is a
    parameter. *)
Record World (MzIdentML : Type) : Type := mkWorld {
  files : gmap string string;
  opened : list string;
  docs : gmap loc MzIdentML
}.
Arguments mkWorld {MzIdentML} _ _ _.
Arguments files {MzIdentML} _.
Arguments opened {MzIdentML} _.
Arguments docs {MzIdentML} _.

(** [MzIdentMLPtr]: a shared handle, null or the address of a document. *)
Definition MzIdentMLPtr : Type := option loc.

(** * The stub reader *)

Module MascotReader.
Section Stub.
Context {MzIdentML : Type}.

(** [std::string identify(const std::string& filename, const std::string& head) const] *)
Definition identify (filename head : string) : M (World MzIdentML) string :=
  ret "".

(** [void read(const std::string&, const std::string&, MzIdentML& result) const]:
    the state is the world together with the caller's [result]. *)
Definition read (filename head : string) : M (World MzIdentML * MzIdentML) unit :=
  throw (runtime_error "[MascotReader::identify] no mascot support enabled.").

(** [void read(const std::string&, const std::string&, MzIdentMLPtr& result) const] *)
Definition read_ptr (filename head : string) : M (World MzIdentML * MzIdentMLPtr) unit :=
  throw (runtime_error "[MascotReader::read] no mascot support enabled.").

(** [void read(const std::string&, const std::string&, std::vector<MzIdentMLPtr>& results) const] *)
Definition read_vector (filename head : string)
  : M (World MzIdentML * list MzIdentMLPtr) unit :=
  throw (runtime_error "[MascotReader::read] no mascot support enabled.").

(** [const char *getType() const] *)
Definition getType : M (World MzIdentML) string :=
  ret "mzIdentML".

End Stub.
End MascotReader.

(** * Error kinds *)

Inductive ErrorKind : Type :=
| UnrecognizedFormat
| FeatureDisabled
| MalformedInput
| IOFailure.

(** The sentence by which a fault text says that a capability is missing. *)
Definition not_enabled_text (capability : string) : string :=
  "no " +:+ capability +:+ " support enabled".

(** Modelled from the spec: the error taxonomy, which the source does not
    declare (it throws [std::runtime_error] with a text, and callers tell the
    kinds apart by substrings of the text).  A text stating that no support
    is enabled is FeatureDisabled; the registry's text says
    "unrecognized format"; the spec fixes no wording for the faults of the
    concrete readers and of the I/O layer, so any other text may be
    MalformedInput or IOFailure. *)
Definition error_kinds (e : exception) : list ErrorKind :=
  let m := what e in
  if mentions "no " m && mentions " support enabled" m then [FeatureDisabled]
  else if mentions "unrecognized format" (lower m) then [UnrecognizedFormat]
  else [MalformedInput; IOFailure].

Definition succeeds {A S : Type} (out : Outcome A * S) : Prop :=
  exists a, out.1 = Returned a.

Definition fails_with {A S : Type} (k : ErrorKind) (out : Outcome A * S) : Prop :=
  exists e, out.1 = Thrown e /\ k ∈ error_kinds e.

(** The text of a failure, if the call failed. *)
Definition fault_text {A S : Type} (out : Outcome A * S) : option string :=
  match out.1 with
  | Returned _ => None
  | Thrown e => Some (what e)
  end.

(** The failure starts with the tag of [reader] and [operation]. *)
Definition tagged_with {A S : Type} (reader operation : string)
    (out : Outcome A * S) : bool :=
  match fault_text out with
  | Some m => String.prefix (fault_prefix reader operation) m
  | None => false
  end.

(** The failure of a stub: of kind FeatureDisabled and of no other kind, with
    a text that says the support for [capability] is not enabled and that
    mentions [capability] as the caller writes it. *)
Definition feature_disabled_fault {A S : Type} (capability : string)
    (out : Outcome A * S) : Prop :=
  exists msg,
    out.1 = Thrown (runtime_error msg) /\
    error_kinds (runtime_error msg) = [FeatureDisabled] /\
    mentions (not_enabled_text (lower capability)) msg = true /\
    mentions capability msg = true.

(** What the framework asks of a read that is forced on a file the reader
    did not identify. *)
Definition direct_read_contract {A S : Type} (out : Outcome A * S) : Prop :=
  succeeds out \/ fails_with MalformedInput out \/ fails_with IOFailure out.

(** * Sample inputs *)

(** The first line of a result file written by the Mascot search engine. *)
Definition mascot_head : string :=
  "MIME-Version: 1.0 (Generated by Mascot version 1.0)".

(** A disk with one Mascot result file, nothing opened, and one shared
    document at address 1 (documents stand as their text here). *)
Definition sample_world : World string :=
  mkWorld {[ "F001.dat" := mascot_head ]} [] {[ 1%positive := "<MzIdentML/>" ]}.

Definition sample_doc : string := "<MzIdentML id='kept'/>".

(** * Consecutive calls on one reader *)

(** One statement after another, as a C++ caller writes them: a throw ends
    the sequence and what follows does not run. *)
Definition bind {S A B : Type} (m : M S A) (k : A -> M S B) : M S B :=
  fun s =>
    match m s with
    | (Returned a, s') => k a s'
    | (Thrown e, s') => (Thrown e, s')
    end.

(** What a caller of the reader holds: the world and one output of each of
    the three shapes the read overloads take by reference. *)
Record Caller (MzIdentML : Type) : Type := mkCaller {
  world : World MzIdentML;
  result : MzIdentML;
  ptr : MzIdentMLPtr;
  results : list MzIdentMLPtr
}.
Arguments mkCaller {MzIdentML} _ _ _ _.
Arguments world {MzIdentML} _.
Arguments result {MzIdentML} _.
Arguments ptr {MzIdentML} _.
Arguments results {MzIdentML} _.

(** A member function run on the part of the caller's state it is given. *)
Definition on_world {D A : Type} (m : M (World D) A) : M (Caller D) A :=
  fun s =>
    let '(o, w') := m (world s) in
    (o, mkCaller w' (result s) (ptr s) (results s)).

Definition on_result {D A : Type} (m : M (World D * D) A) : M (Caller D) A :=
  fun s =>
    let '(o, (w', r')) := m (world s, result s) in
    (o, mkCaller w' r' (ptr s) (results s)).

Definition on_ptr {D A : Type} (m : M (World D * MzIdentMLPtr) A) : M (Caller D) A :=
  fun s =>
    let '(o, (w', p')) := m (world s, ptr s) in
    (o, mkCaller w' (result s) p' (results s)).

Definition on_results {D A : Type} (m : M (World D * list MzIdentMLPtr) A)
  : M (Caller D) A :=
  fun s =>
    let '(o, (w', rs')) := m (world s, results s) in
    (o, mkCaller w' (result s) (ptr s) rs').

(** The calls a caller can make on a reader. *)
Inductive call : Type :=
| call_identify (filename head : string)
| call_read (filename head : string)
| call_read_ptr (filename head : string)
| call_read_vector (filename head : string)
| call_getType.

Definition is_read (c : call) : bool :=
  match c with
  | call_read _ _ | call_read_ptr _ _ | call_read_vector _ _ => true
  | call_identify _ _ | call_getType => false
  end.

Definition no_read (cs : list call) : bool :=
  forallb (fun c => negb (is_read c)) cs.

(** One call; the value is the string returned, or [None] for a [void]
    function. *)
Definition exec {D : Type} (c : call) : M (Caller D) (option string) :=
  match c with
  | call_identify f h =>
      bind (on_world (MascotReader.identify f h)) (fun v => ret (Some v))
  | call_read f h =>
      bind (on_result (MascotReader.read f h)) (fun _ => ret None)
  | call_read_ptr f h =>
      bind (on_ptr (MascotReader.read_ptr f h)) (fun _ => ret None)
  | call_read_vector f h =>
      bind (on_results (MascotReader.read_vector f h)) (fun _ => ret None)
  | call_getType =>
      bind (on_world MascotReader.getType) (fun v => ret (Some v))
  end.

(** The calls of [cs] in order, with the values they returned. *)
Fixpoint run {D : Type} (cs : list call) : M (Caller D) (list (option string)) :=
  match cs with
  | [] => ret []
  | c :: cs' =>
      bind (exec c) (fun v => bind (run cs') (fun vs => ret (v :: vs)))
  end.

(** A caller on the sample world, with a null handle and an empty vector. *)
Definition sample_caller : Caller string :=
  mkCaller sample_world sample_doc None [].

(** * Properties *)

(** ** Occurrence in a text *)

Lemma prefix_append (sub post : string) :
  String.prefix sub (sub +:+ post) = true.
Proof.
  induction sub as [|a sub IH]; simpl.
  - by destruct post.
  - destruct (Ascii.ascii_dec a a); [exact IH | congruence].
Qed.

Lemma prefix_split (sub s : string) :
  String.prefix sub s = true -> exists post, s = sub +:+ post.
Proof.
  revert s. induction sub as [|a sub IH]; intros s H.
  - by exists s.
  - destruct s as [|b s]; simpl in H; [discriminate|].
    destruct (Ascii.ascii_dec a b) as [->|]; [|discriminate].
    destruct (IH s H) as [post ->]. by exists post.
Qed.

Lemma mentions_prefix (sub s : string) :
  String.prefix sub s = true -> mentions sub s = true.
Proof. intros H. destruct s; cbn [mentions]; rewrite H; done. Qed.

Lemma mentions_intro (sub pre post : string) :
  mentions sub (pre +:+ sub +:+ post) = true.
Proof.
  induction pre as [|c pre IH].
  - exact (mentions_prefix sub (sub +:+ post) (prefix_append sub post)).
  - change (String.prefix sub (String c (pre +:+ sub +:+ post))
            || mentions sub (pre +:+ sub +:+ post) = true).
    rewrite IH. apply orb_true_r.
Qed.

Lemma mentions_split (sub s : string) :
  mentions sub s = true -> exists pre post, s = pre +:+ sub +:+ post.
Proof.
  induction s as [|c s IH]; intros H; cbn [mentions] in H.
  - rewrite orb_false_r in H. destruct (prefix_split _ _ H) as [post ->].
    by exists EmptyString, post.
  - apply orb_true_iff in H as [H|H].
    + destruct (prefix_split _ _ H) as [post Hs]. by exists EmptyString, post.
    + destruct (IH H) as (pre & post & ->). by exists (String c pre), post.
Qed.

(** ** The kinds of the two fault texts of the file *)

Lemma kind_of_read_text :
  error_kinds (runtime_error "[MascotReader::read] no mascot support enabled.")
  = [FeatureDisabled].
Proof. reflexivity. Qed.

Lemma kind_of_identify_text :
  error_kinds (runtime_error "[MascotReader::identify] no mascot support enabled.")
  = [FeatureDisabled].
Proof. reflexivity. Qed.

Lemma feature_disabled_fault_kind {A S : Type} (c : string) (out : Outcome A * S) :
  feature_disabled_fault c out -> fails_with FeatureDisabled out.
Proof.
  intros (msg & Hout & Hk & _). exists (runtime_error msg).
  split; [exact Hout|]. rewrite Hk. constructor.
Qed.

Lemma feature_disabled_fault_only {A S : Type} (c : string) (out : Outcome A * S) (k : ErrorKind) :
  feature_disabled_fault c out -> fails_with k out -> k = FeatureDisabled.
Proof.
  intros (msg & Hout & Hk & _) (e & He & Hin).
  rewrite Hout in He. injection He as <-. rewrite Hk in Hin.
  by apply list_elem_of_singleton in Hin.
Qed.

Lemma feature_disabled_fault_no_success {A S : Type} (c : string) (out : Outcome A * S) :
  feature_disabled_fault c out -> ~ succeeds out.
Proof.
  intros (msg & Hout & _) [a Ha]. rewrite Hout in Ha. discriminate.
Qed.

Lemma feature_disabled_fault_not_io {A S : Type} (c : string) (out : Outcome A * S) :
  feature_disabled_fault c out -> ~ fails_with IOFailure out.
Proof.
  intros H Hio. pose proof (feature_disabled_fault_only _ _ _ H Hio). discriminate.
Qed.

Lemma feature_disabled_fault_breaks_contract {A S : Type} (c : string)
    (out : Outcome A * S) :
  feature_disabled_fault c out ->
  fails_with FeatureDisabled out /\ ~ direct_read_contract out.
Proof.
  intros H. split; [by eapply feature_disabled_fault_kind|].
  intros [Hs|[Hm|Hi]].
  - by eapply feature_disabled_fault_no_success.
  - by pose proof (feature_disabled_fault_only _ _ _ H Hm).
  - by pose proof (feature_disabled_fault_only _ _ _ H Hi).
Qed.

(** A throw of one of the two texts is a FeatureDisabled fault: the text is
    found by evaluation. *)
Ltac stub_fault :=
  eexists; repeat split; try reflexivity.

(** ** The reader on every input *)

Section Claims.
Variable MzIdentML : Type.
Implicit Types (filename head : string) (w : World MzIdentML).
Implicit Types (result : MzIdentML) (ptr : MzIdentMLPtr) (results : list MzIdentMLPtr).

(** C1: for every file name and every header, whatever the file holds,
    identify returns the empty string, the non-match sentinel. *)
Theorem identify_never_matches filename head w :
  (MascotReader.identify filename head w).1 = Returned "".
Proof. reflexivity. Qed.

(** C2: on every file name and header, each of the three read overloads
    throws; the fault is of kind FeatureDisabled, its text says that no
    mascot support is enabled, and it mentions the word Mascot. *)
Theorem read_raises_feature_disabled filename head w result ptr results :
  feature_disabled_fault "Mascot" (MascotReader.read filename head (w, result)) /\
  feature_disabled_fault "Mascot" (MascotReader.read_ptr filename head (w, ptr)) /\
  feature_disabled_fault "Mascot" (MascotReader.read_vector filename head (w, results)).
Proof. repeat split; stub_fault. Qed.

(** C3, as the code has it: getType returns the constant mzIdentML, the name
    of the document format (no Mascot name); the call leaves the world as it
    was and its result is the same in every world. *)
Theorem getType_constant w w' :
  MascotReader.getType w = (Returned "mzIdentML", w) /\
  (MascotReader.getType w).1 = (MascotReader.getType w').1.
Proof. split; reflexivity. Qed.

(** C5: each read overload leaves the world, the shared documents in it and
    the caller's output exactly as they were when it fails, and it always
    fails: nothing is populated in part. *)
Theorem read_leaves_output_untouched filename head w result ptr results :
  (~ succeeds (MascotReader.read filename head (w, result)) /\
   (MascotReader.read filename head (w, result)).2 = (w, result)) /\
  (~ succeeds (MascotReader.read_ptr filename head (w, ptr)) /\
   (MascotReader.read_ptr filename head (w, ptr)).2 = (w, ptr)) /\
  (~ succeeds (MascotReader.read_vector filename head (w, results)) /\
   (MascotReader.read_vector filename head (w, results)).2 = (w, results)).
Proof.
  repeat split; try reflexivity; intros [a Ha]; discriminate Ha.
Qed.

(** C6, as the code has it: identify reports no match on every file, and a
    read forced on it fails with FeatureDisabled: it does not succeed (so no
    empty result passes for a success) and its fault is neither
    MalformedInput nor IOFailure. *)
Theorem forced_read_fails_feature_disabled filename head w result ptr results :
  (MascotReader.identify filename head w).1 = Returned "" /\
  (fails_with FeatureDisabled (MascotReader.read filename head (w, result)) /\
   ~ direct_read_contract (MascotReader.read filename head (w, result))) /\
  (fails_with FeatureDisabled (MascotReader.read_ptr filename head (w, ptr)) /\
   ~ direct_read_contract (MascotReader.read_ptr filename head (w, ptr))) /\
  (fails_with FeatureDisabled (MascotReader.read_vector filename head (w, results)) /\
   ~ direct_read_contract (MascotReader.read_vector filename head (w, results))).
Proof.
  split; [reflexivity|].
  split; [|split];
    apply (feature_disabled_fault_breaks_contract "Mascot"); stub_fault.
Qed.

(** C7: identify throws on no input and leaves the world as it found it; it
    answers with the empty string alone. *)
Theorem identify_never_throws filename head w :
  (forall e, (MascotReader.identify filename head w).1 <> Thrown e) /\
  (MascotReader.identify filename head w).2 = w /\
  (MascotReader.identify filename head w).1 = Returned "".
Proof. repeat split. intros e H. discriminate H. Qed.

(** C8: nothing the reader does depends on the file name or the header: on
    two inputs identify and each read overload end the same way and leave
    the same state, the faults carry the same text in any two worlds, and
    getType, which takes no input, answers the same in any two worlds.
    identify and getType do return, and each read overload does raise an
    error, whose text is the same on the two inputs. *)
Theorem stub_ignores_its_input filename head filename' head' w w'
    result result' ptr ptr' results results' :
  MascotReader.identify filename head w = MascotReader.identify filename' head' w /\
  (MascotReader.getType w).1 = (MascotReader.getType w').1 /\
  MascotReader.read filename head (w, result)
    = MascotReader.read filename' head' (w, result) /\
  MascotReader.read_ptr filename head (w, ptr)
    = MascotReader.read_ptr filename' head' (w, ptr) /\
  MascotReader.read_vector filename head (w, results)
    = MascotReader.read_vector filename' head' (w, results) /\
  (MascotReader.read filename head (w, result)).1
    = (MascotReader.read filename' head' (w', result')).1 /\
  (MascotReader.read_ptr filename head (w, ptr)).1
    = (MascotReader.read_ptr filename' head' (w', ptr')).1 /\
  (MascotReader.read_vector filename head (w, results)).1
    = (MascotReader.read_vector filename' head' (w', results')).1 /\
  succeeds (MascotReader.identify filename head w) /\
  succeeds (MascotReader.getType w) /\
  (exists e, (MascotReader.read filename head (w, result)).1 = Thrown e) /\
  (exists e, (MascotReader.read_ptr filename head (w, ptr)).1 = Thrown e) /\
  (exists e, (MascotReader.read_vector filename head (w, results)).1 = Thrown e) /\
  (is_Some (fault_text (MascotReader.read filename head (w, result))) /\
   fault_text (MascotReader.read filename head (w, result))
     = fault_text (MascotReader.read filename' head' (w', result'))) /\
  (is_Some (fault_text (MascotReader.read_ptr filename head (w, ptr))) /\
   fault_text (MascotReader.read_ptr filename head (w, ptr))
     = fault_text (MascotReader.read_ptr filename' head' (w', ptr'))) /\
  (is_Some (fault_text (MascotReader.read_vector filename head (w, results))) /\
   fault_text (MascotReader.read_vector filename head (w, results))
     = fault_text (MascotReader.read_vector filename' head' (w', results'))).
Proof.
  repeat split; unfold succeeds, is_Some; eexists; reflexivity.
Qed.

(** C9: on every file name, bound on the disk or not, each read overload
    fails with the FeatureDisabled fault and not with an IOFailure, and it
    opens no file: the list of opened files and the disk are as before. *)
Theorem read_opens_no_file filename head w result ptr results :
  (feature_disabled_fault "Mascot" (MascotReader.read filename head (w, result)) /\
   ~ fails_with IOFailure (MascotReader.read filename head (w, result)) /\
   opened (MascotReader.read filename head (w, result)).2.1 = opened w /\
   files (MascotReader.read filename head (w, result)).2.1 = files w) /\
  (feature_disabled_fault "Mascot" (MascotReader.read_ptr filename head (w, ptr)) /\
   ~ fails_with IOFailure (MascotReader.read_ptr filename head (w, ptr)) /\
   opened (MascotReader.read_ptr filename head (w, ptr)).2.1 = opened w /\
   files (MascotReader.read_ptr filename head (w, ptr)).2.1 = files w) /\
  (feature_disabled_fault "Mascot" (MascotReader.read_vector filename head (w, results)) /\
   ~ fails_with IOFailure (MascotReader.read_vector filename head (w, results)) /\
   opened (MascotReader.read_vector filename head (w, results)).2.1 = opened w /\
   files (MascotReader.read_vector filename head (w, results)).2.1 = files w).
Proof.
  split; [|split].
  all: split; [stub_fault|].
  all: split; [|split; reflexivity].
  all: apply (feature_disabled_fault_not_io "Mascot"); stub_fault.
Qed.

(** C10: the handle and the vector overloads fail with the text
    [MascotReader::read] no mascot support enabled., the one-document
    overload with [MascotReader::identify] no mascot support enabled.: the
    text of the one-document overload differs from the other two and carries
    the tag of identify. *)
Theorem read_fault_texts filename head w result ptr results :
  fault_text (MascotReader.read_ptr filename head (w, ptr))
    = Some "[MascotReader::read] no mascot support enabled." /\
  fault_text (MascotReader.read_vector filename head (w, results))
    = Some "[MascotReader::read] no mascot support enabled." /\
  fault_text (MascotReader.read filename head (w, result))
    = Some "[MascotReader::identify] no mascot support enabled." /\
  fault_text (MascotReader.read filename head (w, result))
    <> fault_text (MascotReader.read_ptr filename head (w, ptr)) /\
  fault_text (MascotReader.read filename head (w, result))
    <> fault_text (MascotReader.read_vector filename head (w, results)) /\
  tagged_with "MascotReader" "identify" (MascotReader.read filename head (w, result)) = true.
Proof. repeat split; intros H; discriminate H. Qed.

End Claims.

(** ** The reader on the sample inputs *)

(** C3: the name getType returns is no identifier of the Mascot format: it
    does not name Mascot in any letter case. *)
Lemma getType_names_no_Mascot :
  ~ (exists name,
       (MascotReader.getType sample_world).1 = Returned name /\
       names_format "Mascot" name = true).
Proof.
  intros (name & H & Hn). injection H as <-. vm_compute in Hn. discriminate.
Qed.

(** C4: forced on the sample file, the one-document overload fails with a
    text that does not start with the tag of the read operation, where the
    handle and the vector overloads do; its tag is that of identify. *)
Theorem read_value_fault_tag :
  tagged_with "MascotReader" "read"
    (MascotReader.read "F001.dat" mascot_head (sample_world, sample_doc)) = false /\
  tagged_with "MascotReader" "identify"
    (MascotReader.read "F001.dat" mascot_head (sample_world, sample_doc)) = true /\
  tagged_with "MascotReader" "read"
    (MascotReader.read_ptr "F001.dat" mascot_head (sample_world, Some 1%positive)) = true /\
  tagged_with "MascotReader" "read"
    (MascotReader.read_vector "F001.dat" mascot_head (sample_world, [Some 1%positive])) = true.
Proof. repeat split. Qed.

(** C6: on the sample file identify reports no match, and the forced read
    neither succeeds nor fails with MalformedInput or IOFailure. *)
Lemma forced_read_breaks_contract :
  ~ ((MascotReader.identify "F001.dat" mascot_head sample_world).1 = Returned "" ->
     direct_read_contract
       (MascotReader.read_ptr "F001.dat" mascot_head (sample_world, Some 1%positive))).
Proof.
  intros H. specialize (H eq_refl). revert H.
  apply (feature_disabled_fault_breaks_contract "Mascot"). stub_fault.
Qed.

(** ** Sequences of calls *)

Section Calls.
Variable MzIdentML : Type.
Implicit Types (s : Caller MzIdentML) (c : call) (cs pre post : list call).

(** A call other than a read returns and a read throws; either way the
    caller's state is what it was. *)
Lemma exec_cases c s :
  (is_read c = false /\ exists v, exec c s = (Returned (Some v), s)) \/
  (is_read c = true /\ exists e, exec c s = (Thrown e, s)).
Proof.
  destruct s as [w r p rs].
  destruct c; [left|right|right|right|left]; split; try reflexivity; eexists; reflexivity.
Qed.

Lemma run_cons_returned c cs s v :
  exec c s = (Returned v, s) ->
  run (c :: cs) s = bind (run cs) (fun vs => ret (v :: vs)) s.
Proof. intros H. cbn [run]. unfold bind at 1. by rewrite H. Qed.

Lemma run_cons_thrown c cs s e :
  exec c s = (Thrown e, s) -> run (c :: cs) s = (Thrown e, s).
Proof. intros H. cbn [run]. unfold bind at 1. by rewrite H. Qed.

(** No sequence of calls on the reader, of any length and in any order,
    changes the disk, the list of opened files, the shared documents or one
    of the caller's three outputs, whether it returns or stops at a throw. *)
Theorem run_leaves_caller cs s :
  (run cs s).2 = s.
Proof.
  induction cs as [|c cs IH]; [reflexivity|].
  destruct (exec_cases c s) as [[_ [v H]]|[_ [e H]]].
  - rewrite (run_cons_returned _ _ _ _ H). unfold bind.
    destruct (run cs s) as [[vs|e] s'] eqn:E; simpl in *; exact IH.
  - by rewrite (run_cons_thrown _ _ _ _ H).
Qed.

(** A sequence of calls returns exactly when it holds no read call: with
    identify and getType alone it never throws, and with one read call
    anywhere in it, it never reaches its end. *)
Theorem run_returns_iff_no_read cs s :
  succeeds (run cs s) <-> no_read cs = true.
Proof.
  induction cs as [|c cs IH].
  - split; [reflexivity|]. intros _. by exists [].
  - destruct (exec_cases c s) as [[Hc [v H]]|[Hc [e H]]].
    + rewrite (run_cons_returned _ _ _ _ H). cbn [no_read forallb]. rewrite Hc.
      cbn [negb andb]. fold (no_read cs). rewrite <- IH. unfold bind, succeeds.
      destruct (run cs s) as [[vs|e] s']; simpl.
      * split; intros _; eexists; reflexivity.
      * split; intros [a Ha]; discriminate Ha.
    + rewrite (run_cons_thrown _ _ _ _ H). cbn [no_read forallb]. rewrite Hc.
      split; [intros [a Ha]; discriminate Ha | discriminate].
Qed.

(** A sequence fails with the text of its first read call: the calls before
    it (identify and getType, however many) do not alter the fault and the
    calls after it do not run. *)
Theorem run_throws_at_first_read pre c post s :
  no_read pre = true ->
  is_read c = true ->
  fault_text (run (pre ++ c :: post) s) = fault_text (exec c s) /\
  is_Some (fault_text (exec c s)).
Proof.
  intros Hpre Hc.
  assert (Hs : is_Some (fault_text (exec c s))).
  { destruct (exec_cases c s) as [[Hn _]|[_ [e H]]]; [congruence|].
    unfold fault_text. rewrite H. by eexists. }
  split; [|exact Hs].
  induction pre as [|d pre IH].
  - destruct (exec_cases c s) as [[Hn _]|[_ [e H]]]; [congruence|].
    change ([] ++ c :: post) with (c :: post).
    rewrite (run_cons_thrown _ _ _ _ H). unfold fault_text. by rewrite H.
  - cbn [no_read forallb] in Hpre. apply andb_true_iff in Hpre as [Hd Hpre].
    specialize (IH Hpre).
    destruct (exec_cases d s) as [[_ [v H]]|[Hr _]];
      [|rewrite Hr in Hd; discriminate].
    change ((d :: pre) ++ c :: post) with (d :: (pre ++ c :: post)).
    rewrite (run_cons_returned _ _ _ _ H). rewrite <- IH.
    unfold bind, fault_text.
    destruct (run (pre ++ c :: post) s) as [[vs|e] s']; reflexivity.
Qed.

(** A sequence without a read call returns one value per call, in order: the
    empty string where the call was identify, on whatever file, and
    mzIdentML where it was getType. *)
Theorem run_probe_answers cs s :
  no_read cs = true ->
  exists vs,
    (run cs s).1 = Returned vs /\
    length vs = length cs /\
    forall i : nat,
      (forall f h, cs !! i = Some (call_identify f h) -> vs !! i = Some (Some "")) /\
      (cs !! i = Some call_getType -> vs !! i = Some (Some "mzIdentML")).
Proof.
  induction cs as [|c cs IH]; intros Hn.
  - exists []. repeat split; intros; discriminate.
  - cbn [no_read forallb] in Hn. apply andb_true_iff in Hn as [Hc Hn].
    destruct (IH Hn) as (vs & Hrun & Hlen & Hvs).
    destruct (run cs s) as [o s'] eqn:E. simpl in Hrun. subst o.
    destruct s as [w r p rs].
    destruct c as [f h|f h|f h|f h|]; try discriminate Hc.
    + exists (Some "" :: vs). cbn [run]. unfold bind at 1. simpl.
      unfold bind. rewrite E. simpl. split; [reflexivity|].
      split; [by rewrite Hlen|].
      intros [|i]; simpl; [split; [reflexivity|discriminate]|apply Hvs].
    + exists (Some "mzIdentML" :: vs). cbn [run]. unfold bind at 1. simpl.
      unfold bind. rewrite E. simpl. split; [reflexivity|].
      split; [by rewrite Hlen|].
      intros [|i]; simpl; [split; [discriminate|reflexivity]|apply Hvs].
Qed.

End Calls.

(** ** Sequences on the sample caller *)

(** Two probes, a read through the handle, then a read of one document: the
    fault is that of the read through the handle. *)
Lemma run_throws_at_first_read_witness :
  no_read [call_identify "F001.dat" mascot_head; call_getType] = true /\
  is_read (call_read_ptr "F001.dat" mascot_head) = true /\
  (fault_text
     (run ([call_identify "F001.dat" mascot_head; call_getType]
           ++ call_read_ptr "F001.dat" mascot_head
           :: [call_read "F001.dat" mascot_head]) sample_caller)
   = fault_text (exec (call_read_ptr "F001.dat" mascot_head) sample_caller) /\
   is_Some (fault_text (exec (call_read_ptr "F001.dat" mascot_head) sample_caller))).
Proof.
  split; [reflexivity|]. split; [reflexivity|].
  apply (run_throws_at_first_read string); reflexivity.
Defined.

(** Probing the sample file and a file that does not exist, then asking for
    the type. *)
Lemma run_probe_answers_witness :
  no_read [call_identify "F001.dat" mascot_head; call_identify "absent.dat" "";
           call_getType] = true /\
  exists vs,
    (run [call_identify "F001.dat" mascot_head; call_identify "absent.dat" "";
          call_getType] sample_caller).1 = Returned vs /\
    length vs = 3 /\
    forall i : nat,
      (forall f h,
         [call_identify "F001.dat" mascot_head; call_identify "absent.dat" "";
          call_getType] !! i = Some (call_identify f h) ->
         vs !! i = Some (Some "")) /\
      ([call_identify "F001.dat" mascot_head; call_identify "absent.dat" "";
        call_getType] !! i = Some call_getType ->
       vs !! i = Some (Some "mzIdentML")).
Proof.
  split; [reflexivity|].
  apply (run_probe_answers string
           [call_identify "F001.dat" mascot_head; call_identify "absent.dat" "";
            call_getType] sample_caller).
  reflexivity.
Defined.
